(** * pystlouisfed.fraser: the FRASER adapter over an OAI-PMH collaborator

    The class [FRASER] of [src/pystlouisfed/fraser.py] owns one connection
    object of the external library (class [Sickle]) and exposes four methods,
    each of which performs one call of a verb method of that connection with
    keyword arguments.  The library is not part of the repository: it is an
    interface here ([SickleAPI]), and everything is proved for every
    implementation of it.  A small repository in memory ([Mock]) implements
    the interface, for running the adapter on concrete inputs. *)

From stdpp Require Import base option list strings gmap.

Open Scope string_scope.
Open Scope list_scope.

(** ** Python values and keyword arguments *)

(** The values that the adapter passes as keyword arguments: [None], a
    [bool] and a [str]. *)
Inductive pyval : Type :=
  | PyNone
  | PyBool (b : bool)
  | PyStr (s : string).

#[global] Instance pyval_eq_dec : EqDecision pyval.
Proof. solve_decision. Defined.

(** A parameter annotated [Optional[str]]: [None] or a string. *)
Definition of_optional (o : option string) : pyval :=
  match o with
  | None => PyNone
  | Some s => PyStr s
  end.

(** The keyword arguments of a call, [name=value, ...], are a dictionary. *)
Abbreviation kwargs := (gmap string pyval).

(** ** The collaborator *)

(** Modelled from the spec: the class [Sickle] of the external library, "a
    connection object constructed from a base URL".  [Sickle(url)] is
    [mkSickle url]: it keeps the URL and sends nothing. *)
Record Sickle : Type := mkSickle { endpoint : string }.

#[global] Instance Sickle_eq_dec : EqDecision Sickle.
Proof. solve_decision. Defined.

(** The four verb methods that the adapter calls. *)
Inductive verb : Type :=
  | vListRecords
  | vListSets
  | vListIdentifiers
  | vGetRecord.

#[global] Instance verb_eq_dec : EqDecision verb.
Proof. solve_decision. Defined.

(** One call of a verb method, as the collaborator receives it: the
    connection it is called on, the method, the keyword arguments. *)
Record request : Type := {
  via : Sickle;
  method : verb;
  params : kwargs
}.

(** A call returns a value or raises. *)
Inductive outcome (E A : Type) : Type :=
  | Returned (a : A)
  | Raised (e : E).
Arguments Returned {E A} a.
Arguments Raised {E A} e.

Definition outcome_map {E A B} (f : A → B) (o : outcome E A) : outcome E B :=
  match o with
  | Returned a => Returned (f a)
  | Raised e => Raised e
  end.

(** The interface of the external library that the adapter consumes:
    verb-named methods of a connection that take keyword arguments and
    return a single record or a lazy sequence, or raise.  Nothing is assumed
    of an implementation.  [world] is all that a call may read and change
    (the remote repository, the transport, the library's own state); the
    objects returned and the exceptions raised are the library's. *)
Class SickleAPI : Type := {
  world : Type;
  exn : Type;
  BaseOAIIterator : Type;
  OAIRecord : Type;
  record_identifier : OAIRecord → string;
  ListRecords : Sickle → kwargs → world → outcome exn BaseOAIIterator * world;
  ListSets : Sickle → kwargs → world → outcome exn BaseOAIIterator * world;
  ListIdentifiers : Sickle → kwargs → world → outcome exn BaseOAIIterator * world;
  GetRecord : Sickle → kwargs → world → outcome exn OAIRecord * world
}.

(** ** The adapter *)

(** [class FRASER]: its only attribute is [_sickle]. *)
Record FRASER : Type := { _sickle : Sickle }.

Section Adapter.
Context `{API : SickleAPI}.

(** The state a method runs in: the instance [self], the collaborator's
    world, and the calls made on the collaborator so far (oldest first). *)
Record state : Type := {
  self : FRASER;
  remote : world;
  sent : list request
}.

(** Methods are state transformers that return or raise. *)
Definition M (A : Type) : Type := state → outcome exn A * state.

Definition ret {A} (a : A) : M A := λ st, (Returned a, st).

(** Sequencing: an exception raised by [m] leaves through [bind m k]. *)
Definition bind {A B} (m : M A) (k : A → M B) : M B :=
  λ st,
    match m st with
    | (Returned a, st') => k a st'
    | (Raised e, st') => (Raised e, st')
    end.

#[global] Instance M_ret : MRet M := @ret.
#[global] Instance M_bind : MBind M := λ A B k m, bind m k.
#[global] Instance M_fmap : FMap M := λ A B f m, bind m (λ a, ret (f a)).

(** [self._sickle] *)
Definition self_sickle : M Sickle := λ st, (Returned (_sickle (self st)), st).

(** [self._sickle = h] *)
Definition set_self_sickle (h : Sickle) : M unit :=
  λ st, (Returned tt, {| self := {| _sickle := h |}; remote := remote st; sent := sent st |}).

(** A call of a verb method [f] of the collaborator: the call is recorded,
    and the collaborator answers from its world. *)
Definition perform {A} (rq : request)
    (f : Sickle → kwargs → world → outcome exn A * world) : M A :=
  λ st,
    let '(r, w) := f (via rq) (params rq) (remote st) in
    (r, {| self := self st; remote := w; sent := sent st ++ [rq] |}).

Definition Sickle_ListRecords (h : Sickle) (kw : kwargs) : M BaseOAIIterator :=
  perform {| via := h; method := vListRecords; params := kw |} ListRecords.
Definition Sickle_ListSets (h : Sickle) (kw : kwargs) : M BaseOAIIterator :=
  perform {| via := h; method := vListSets; params := kw |} ListSets.
Definition Sickle_ListIdentifiers (h : Sickle) (kw : kwargs) : M BaseOAIIterator :=
  perform {| via := h; method := vListIdentifiers; params := kw |} ListIdentifiers.
Definition Sickle_GetRecord (h : Sickle) (kw : kwargs) : M OAIRecord :=
  perform {| via := h; method := vGetRecord; params := kw |} GetRecord.

End Adapter.

Section Methods.
Context `{API : SickleAPI}.

Definition FRASER_URL : string := "https://fraser.stlouisfed.org/oai".

(** [def __init__(self)]:
    [self._sickle = Sickle("https://fraser.stlouisfed.org/oai")] *)
Definition __init__ : M unit :=
  set_self_sickle (mkSickle FRASER_URL).

(** [metadataPrefix="mods", ignore_deleted=ignore_deleted, set=set] *)
Definition list_kwargs (ignore_deleted : bool) (set : option string) : kwargs :=
  <["metadataPrefix" := PyStr "mods"]>
    (<["ignore_deleted" := PyBool ignore_deleted]>
      (<["set" := of_optional set]> ∅)).

(** [identifier=identifier, metadataPrefix="mods"] *)
Definition get_kwargs (identifier : string) : kwargs :=
  <["identifier" := PyStr identifier]>
    (<["metadataPrefix" := PyStr "mods"]> ∅).

(** [def list_records(self, ignore_deleted, set)]:
    [return self._sickle.ListRecords(metadataPrefix="mods",
    ignore_deleted=ignore_deleted, set=set)] *)
Definition list_records (ignore_deleted : bool) (set : option string)
    : M BaseOAIIterator :=
  h ← self_sickle;
  Sickle_ListRecords h (list_kwargs ignore_deleted set).

(** [def list_sets(self)]: [return self._sickle.ListSets()] *)
Definition list_sets : M BaseOAIIterator :=
  h ← self_sickle;
  Sickle_ListSets h ∅.

(** [def list_identifiers(self, ignore_deleted, set)]:
    [return self._sickle.ListIdentifiers(metadataPrefix="mods",
    ignore_deleted=ignore_deleted, set=set)] *)
Definition list_identifiers (ignore_deleted : bool) (set : option string)
    : M BaseOAIIterator :=
  h ← self_sickle;
  Sickle_ListIdentifiers h (list_kwargs ignore_deleted set).

(** [def get_record(self, identifier)]:
    [return self._sickle.GetRecord(identifier=identifier,
    metadataPrefix="mods")] *)
Definition get_record (identifier : string) : M OAIRecord :=
  h ← self_sickle;
  Sickle_GetRecord h (get_kwargs identifier).

(** *** Default values of the parameters *)

(** [ignore_deleted: bool = False] and [set: Optional[str] = None] in the
    two signatures.  At a call site an argument is given ([Some v]) or
    left out ([None]); a parameter left out is bound to its default. *)
Definition default_ignore_deleted : bool := false.
Definition default_set : option string := None.

Definition call_list_records (ignore_deleted : option bool)
    (set : option (option string)) : M BaseOAIIterator :=
  list_records (default default_ignore_deleted ignore_deleted)
               (default default_set set).

Definition call_list_identifiers (ignore_deleted : option bool)
    (set : option (option string)) : M BaseOAIIterator :=
  list_identifiers (default default_ignore_deleted ignore_deleted)
                   (default default_set set).

(** *** The four operations, uniformly *)

(** A call of one of the four methods, with its arguments. *)
Inductive operation : Type :=
  | op_list_records (ignore_deleted : bool) (set : option string)
  | op_list_sets
  | op_list_identifiers (ignore_deleted : bool) (set : option string)
  | op_get_record (identifier : string).

(** What a method returns: a lazy sequence or a single record. *)
Inductive value : Type :=
  | Sequence (it : BaseOAIIterator)
  | Single (r : OAIRecord).

Definition invoke (o : operation) : M value :=
  match o with
  | op_list_records i s => Sequence <$> list_records i s
  | op_list_sets => Sequence <$> list_sets
  | op_list_identifiers i s => Sequence <$> list_identifiers i s
  | op_get_record id => Single <$> get_record id
  end.

(** The verb documented for each operation. *)
Definition verb_of (o : operation) : verb :=
  match o with
  | op_list_records _ _ => vListRecords
  | op_list_sets => vListSets
  | op_list_identifiers _ _ => vListIdentifiers
  | op_get_record _ => vGetRecord
  end.

(** The call that an operation makes on the connection [h]: the verb
    method and the keyword arguments of the method's [return] line. *)
Definition call_of (h : Sickle) (o : operation) : request :=
  {| via := h;
     method := verb_of o;
     params :=
       match o with
       | op_list_records i s => list_kwargs i s
       | op_list_sets => ∅
       | op_list_identifiers i s => list_kwargs i s
       | op_get_record id => get_kwargs id
       end |}.

(** The collaborator's answer to a call, whatever the verb. *)
Definition respond (rq : request) (w : world) : outcome exn value * world :=
  match method rq with
  | vListRecords =>
      let '(r, w') := ListRecords (via rq) (params rq) w in (outcome_map Sequence r, w')
  | vListSets =>
      let '(r, w') := ListSets (via rq) (params rq) w in (outcome_map Sequence r, w')
  | vListIdentifiers =>
      let '(r, w') := ListIdentifiers (via rq) (params rq) w in (outcome_map Sequence r, w')
  | vGetRecord =>
      let '(r, w') := GetRecord (via rq) (params rq) w in (outcome_map Single r, w')
  end.

(** A caller that makes the calls [ops] one after the other on the same
    instance, going on after a call that raised. *)
Fixpoint session (ops : list operation) (st : state) : state :=
  match ops with
  | [] => st
  | o :: ops' => session ops' (snd (invoke o st))
  end.

(** The calls made on the collaborator between two states. *)
Definition sent_since (st st' : state) : list request :=
  drop (length (sent st)) (sent st').

End Methods.

(** ** A collaborator in memory *)

Module Mock.

(** A record of the repository: its identifier, the set it belongs to,
    and whether it is flagged as deleted. *)
Record item : Type := {
  ident : string;
  in_set : string;
  deleted : bool
}.

Inductive failure : Type :=
  | IdDoesNotExist
  | BadArgument
  | ConnectionError.

Definition repository : list item :=
  [ {| ident := "oai:fraser.stlouisfed.org:title:176";
       in_set := "author:9"; deleted := false |};
    {| ident := "oai:fraser.stlouisfed.org:title:1";
       in_set := "theme:3"; deleted := true |} ].

Definition in_scope (kw : kwargs) (it : item) : bool :=
  match kw !! "set" with
  | Some (PyStr s) => bool_decide (in_set it = s)
  | _ => true
  end.

Definition kept (kw : kwargs) (it : item) : bool :=
  match kw !! "ignore_deleted" with
  | Some (PyBool true) => negb (deleted it)
  | _ => true
  end.

(** The world is the number of requests served so far; only the FRASER
    endpoint answers. *)
Definition listing (h : Sickle) (kw : kwargs) (n : nat)
    : outcome failure (list item) * nat :=
  if bool_decide (endpoint h = "https://fraser.stlouisfed.org/oai")
  then (Returned (filter (λ it, in_scope kw it && kept kw it) repository), S n)
  else (Raised ConnectionError, n).

Definition single (h : Sickle) (kw : kwargs) (n : nat)
    : outcome failure item * nat :=
  if bool_decide (endpoint h = "https://fraser.stlouisfed.org/oai")
  then
    match kw !! "identifier" with
    | Some (PyStr i) =>
        match find (λ it, bool_decide (ident it = i)) repository with
        | Some it => (Returned it, S n)
        | None => (Raised IdDoesNotExist, S n)
        end
    | _ => (Raised BadArgument, S n)
    end
  else (Raised ConnectionError, n).

#[export] Instance api : SickleAPI := {|
  world := nat;
  exn := failure;
  BaseOAIIterator := list item;
  OAIRecord := item;
  record_identifier := ident;
  ListRecords := listing;
  ListSets := listing;
  ListIdentifiers := listing;
  GetRecord := single
|}.

(** A state before any instance was initialised. *)
Definition blank : state :=
  {| self := {| _sickle := mkSickle "" |}; remote := 0; sent := [] |}.

(** The state after [FRASER()]. *)
Definition fresh : state := snd (__init__ blank).

(** A state that holds another connection, and has a call behind it. *)
Definition used : state :=
  {| self := {| _sickle := mkSickle "http://localhost/oai" |};
     remote := 0;
     sent := [ {| via := mkSickle "http://localhost/oai";
                  method := vListSets; params := ∅ |} ] |}.

End Mock.

(** ** Running one call *)

Section Run.
Context `{API : SickleAPI}.

(** The state after a call [rq] that the collaborator answered with
    [ans]. *)
Definition after (st : state) (rq : request) {A}
    (ans : outcome exn A * world) : state :=
  {| self := self st; remote := snd ans; sent := sent st ++ [rq] |}.

Lemma run_perform {A} (rq : request)
    (f : Sickle → kwargs → world → outcome exn A * world) (st : state) :
  perform rq f st
  = (fst (f (via rq) (params rq) (remote st)),
     after st rq (f (via rq) (params rq) (remote st))).
Proof.
  unfold perform, after.
  destruct (f (via rq) (params rq) (remote st)) as [r w]; reflexivity.
Qed.

Lemma run_bind_self {A} (k : Sickle → M A) (st : state) :
  (h ← self_sickle; k h) st = k (_sickle (self st)) st.
Proof. reflexivity. Qed.

Lemma run_fmap {A B} (g : A → B) (m : M A) (st : state) :
  (g <$> m) st = (outcome_map g (fst (m st)), snd (m st)).
Proof.
  unfold fmap, M_fmap, bind, ret.
  destruct (m st) as [[a|e] st']; reflexivity.
Qed.

Lemma run_list_records i s st :
  list_records i s st
  = (fst (ListRecords (_sickle (self st)) (list_kwargs i s) (remote st)),
     after st (call_of (_sickle (self st)) (op_list_records i s))
       (ListRecords (_sickle (self st)) (list_kwargs i s) (remote st))).
Proof.
  unfold list_records. rewrite run_bind_self.
  unfold Sickle_ListRecords. by rewrite run_perform.
Qed.

Lemma run_list_sets st :
  list_sets st
  = (fst (ListSets (_sickle (self st)) ∅ (remote st)),
     after st (call_of (_sickle (self st)) op_list_sets)
       (ListSets (_sickle (self st)) ∅ (remote st))).
Proof.
  unfold list_sets. rewrite run_bind_self.
  unfold Sickle_ListSets. by rewrite run_perform.
Qed.

Lemma run_list_identifiers i s st :
  list_identifiers i s st
  = (fst (ListIdentifiers (_sickle (self st)) (list_kwargs i s) (remote st)),
     after st (call_of (_sickle (self st)) (op_list_identifiers i s))
       (ListIdentifiers (_sickle (self st)) (list_kwargs i s) (remote st))).
Proof.
  unfold list_identifiers. rewrite run_bind_self.
  unfold Sickle_ListIdentifiers. by rewrite run_perform.
Qed.

Lemma run_get_record id st :
  get_record id st
  = (fst (GetRecord (_sickle (self st)) (get_kwargs id) (remote st)),
     after st (call_of (_sickle (self st)) (op_get_record id))
       (GetRecord (_sickle (self st)) (get_kwargs id) (remote st))).
Proof.
  unfold get_record. rewrite run_bind_self.
  unfold Sickle_GetRecord. by rewrite run_perform.
Qed.

(** Every operation is one call, answered by the collaborator. *)
Lemma run_invoke o st :
  invoke o st
  = (fst (respond (call_of (_sickle (self st)) o) (remote st)),
     after st (call_of (_sickle (self st)) o)
       (respond (call_of (_sickle (self st)) o) (remote st))).
Proof.
  destruct o as [i s| |i s|id]; unfold invoke; rewrite run_fmap.
  - rewrite run_list_records. unfold respond, after; simpl.
    by destruct (ListRecords _ _ _).
  - rewrite run_list_sets. unfold respond, after; simpl.
    by destruct (ListSets _ _ _).
  - rewrite run_list_identifiers. unfold respond, after; simpl.
    by destruct (ListIdentifiers _ _ _).
  - rewrite run_get_record. unfold respond, after; simpl.
    by destruct (GetRecord _ _ _).
Qed.

Lemma sent_since_after {A} st rq (ans : outcome exn A * world) :
  sent_since st (after st rq ans) = [rq].
Proof. unfold sent_since, after; simpl. by rewrite drop_app_length. Qed.

(** The keyword arguments of the two listing methods. *)
Lemma list_kwargs_spec i s :
  dom (list_kwargs i s) = ({["metadataPrefix"; "ignore_deleted"; "set"]} : gset string)
  ∧ list_kwargs i s !! "metadataPrefix" = Some (PyStr "mods")
  ∧ list_kwargs i s !! "ignore_deleted" = Some (PyBool i)
  ∧ list_kwargs i s !! "set" = Some (of_optional s).
Proof.
  unfold list_kwargs. split; [|by simplify_map_eq].
  rewrite !dom_insert_L, dom_empty_L. set_solver.
Qed.

Lemma get_kwargs_spec id :
  dom (get_kwargs id) = ({["identifier"; "metadataPrefix"]} : gset string)
  ∧ get_kwargs id !! "identifier" = Some (PyStr id)
  ∧ get_kwargs id !! "metadataPrefix" = Some (PyStr "mods").
Proof.
  unfold get_kwargs. split; [|by simplify_map_eq].
  rewrite !dom_insert_L, dom_empty_L. set_solver.
Qed.

End Run.

(** ** The four methods forward one call *)

Section Forwarding.
Context `{API : SickleAPI}.

(** C1. [list_records(ignore_deleted, set)] makes exactly one call on the
    collaborator: [ListRecords] on the instance's connection, with the
    keyword arguments [metadataPrefix="mods"], [ignore_deleted] as the
    caller gave it and [set] as the caller gave it, and no other keyword.
    It returns (or raises) what the collaborator returns (or raises),
    unchanged. *)
Theorem list_records_forwards (ignore_deleted : bool) (set : option string)
    (st : state) :
  ∃ kw : kwargs,
    (dom kw = {["metadataPrefix"; "ignore_deleted"; "set"]}
     ∧ kw !! "metadataPrefix" = Some (PyStr "mods")
     ∧ kw !! "ignore_deleted" = Some (PyBool ignore_deleted)
     ∧ kw !! "set" = Some (of_optional set))
    ∧ list_records ignore_deleted set st
      = (fst (ListRecords (_sickle (self st)) kw (remote st)),
         {| self := self st;
            remote := snd (ListRecords (_sickle (self st)) kw (remote st));
            sent := sent st ++ [ {| via := _sickle (self st);
                                    method := vListRecords;
                                    params := kw |} ] |}).
Proof.
  exists (list_kwargs ignore_deleted set). split.
  - apply list_kwargs_spec.
  - apply run_list_records.
Qed.

(** C2. [get_record(identifier)] makes exactly one call on the
    collaborator: [GetRecord] on the instance's connection, with the
    keyword arguments [identifier] as given and [metadataPrefix="mods"],
    and no other keyword.  It returns the record that the collaborator
    returns; so when the collaborator answers with a record that bears the
    identifier asked for, the record returned bears the input identifier. *)
Theorem get_record_forwards (identifier : string) (st : state) :
  ∃ kw : kwargs,
    (dom kw = {["identifier"; "metadataPrefix"]}
     ∧ kw !! "identifier" = Some (PyStr identifier)
     ∧ kw !! "metadataPrefix" = Some (PyStr "mods"))
    ∧ get_record identifier st
      = (fst (GetRecord (_sickle (self st)) kw (remote st)),
         {| self := self st;
            remote := snd (GetRecord (_sickle (self st)) kw (remote st));
            sent := sent st ++ [ {| via := _sickle (self st);
                                    method := vGetRecord;
                                    params := kw |} ] |})
    ∧ ∀ r : OAIRecord,
        fst (GetRecord (_sickle (self st)) kw (remote st)) = Returned r →
        record_identifier r = identifier →
        ∃ r', fst (get_record identifier st) = Returned r'
              ∧ record_identifier r' = identifier.
Proof.
  exists (get_kwargs identifier). split; [apply get_kwargs_spec|].
  split; [apply run_get_record|].
  intros r Hr Hid. exists r. rewrite run_get_record. by split.
Qed.

(** C3. [list_identifiers(ignore_deleted, set)] makes exactly one call on
    the collaborator: [ListIdentifiers] on the instance's connection, with
    the keyword arguments that [list_records] passes for the same
    arguments ([metadataPrefix="mods"], [ignore_deleted], [set]).  It
    returns what the collaborator returns, unchanged. *)
Theorem list_identifiers_forwards (ignore_deleted : bool)
    (set : option string) (st : state) :
  ∃ kw : kwargs,
    (dom kw = {["metadataPrefix"; "ignore_deleted"; "set"]}
     ∧ kw !! "metadataPrefix" = Some (PyStr "mods")
     ∧ kw !! "ignore_deleted" = Some (PyBool ignore_deleted)
     ∧ kw !! "set" = Some (of_optional set))
    ∧ list_identifiers ignore_deleted set st
      = (fst (ListIdentifiers (_sickle (self st)) kw (remote st)),
         {| self := self st;
            remote := snd (ListIdentifiers (_sickle (self st)) kw (remote st));
            sent := sent st ++ [ {| via := _sickle (self st);
                                    method := vListIdentifiers;
                                    params := kw |} ] |})
    ∧ params <$> sent_since st (snd (list_records ignore_deleted set st))
      = [kw].
Proof.
  exists (list_kwargs ignore_deleted set). split; [apply list_kwargs_spec|].
  split; [apply run_list_identifiers|].
  rewrite run_list_records; simpl. by rewrite sent_since_after.
Qed.

(** C4. [list_sets()] makes exactly one call on the collaborator:
    [ListSets] on the instance's connection with no keyword argument at
    all, so without [metadataPrefix].  It returns what the collaborator
    returns, unchanged. *)
Theorem list_sets_forwards (st : state) :
  list_sets st
  = (fst (ListSets (_sickle (self st)) ∅ (remote st)),
     {| self := self st;
        remote := snd (ListSets (_sickle (self st)) ∅ (remote st));
        sent := sent st ++ [ {| via := _sickle (self st);
                                method := vListSets;
                                params := ∅ |} ] |})
  ∧ ∃ rq, sent_since st (snd (list_sets st)) = [rq]
          ∧ dom (params rq) = ∅
          ∧ params rq !! "metadataPrefix" = None.
Proof.
  split; [apply run_list_sets|].
  exists (call_of (_sickle (self st)) op_list_sets).
  rewrite run_list_sets; simpl. rewrite sent_since_after; simpl.
  split; [done|]. split; [apply dom_empty_L | apply lookup_empty].
Qed.

End Forwarding.

(** ** The connection, errors and repeated calls *)

Section Client.
Context `{API : SickleAPI}.

Lemma self_after {A} st rq (ans : outcome exn A * world) :
  self (after st rq ans) = self st.
Proof. reflexivity. Qed.

Lemma self_invoke o st : self (snd (invoke o st)) = self st.
Proof. by rewrite run_invoke. Qed.

Lemma sent_invoke o st :
  sent (snd (invoke o st)) = sent st ++ [call_of (_sickle (self st)) o].
Proof. by rewrite run_invoke. Qed.

Lemma self_session ops st : self (session ops st) = self st.
Proof.
  revert st; induction ops as [|o ops IH]; intros st; simpl; [done|].
  by rewrite IH, self_invoke.
Qed.

(** The calls of a session, in order: all on the connection of [st]. *)
Lemma sent_session ops st :
  sent (session ops st)
  = sent st ++ (call_of (_sickle (self st)) <$> ops).
Proof.
  revert st; induction ops as [|o ops IH]; intros st; simpl.
  - by rewrite app_nil_r.
  - rewrite IH, self_invoke, sent_invoke. by rewrite <- app_assoc.
Qed.

Lemma sent_since_session ops st :
  sent_since st (session ops st) = call_of (_sickle (self st)) <$> ops.
Proof. unfold sent_since. by rewrite sent_session, drop_app_length. Qed.

(** C10. [__init__] returns normally (it returns [None]) from every
    state; afterwards the instance holds the connection built from the
    fixed base URL and nothing else; the collaborator's world is as it
    was and no call was made on it.  The annotation [-> NoReturn] is not
    part of what runs. *)
Theorem init_returns (st : state) :
  __init__ st
  = (Returned tt,
     {| self := {| _sickle := mkSickle "https://fraser.stlouisfed.org/oai" |};
        remote := remote st;
        sent := sent st |}).
Proof. reflexivity. Qed.

(** C5. After [__init__] the connection is bound to
    [https://fraser.stlouisfed.org/oai]; whatever calls of the four
    methods follow, the instance keeps that connection, each call makes
    one call on the collaborator, and every one of them goes through
    that connection, hence to that URL. *)
Theorem requests_target_fraser (st0 : state) (ops : list operation) :
  let st1 := snd (__init__ st0) in
  let stn := session ops st1 in
  endpoint (_sickle (self st1)) = "https://fraser.stlouisfed.org/oai"
  ∧ _sickle (self stn) = _sickle (self st1)
  ∧ sent stn = sent st1 ++ sent_since st1 stn
  ∧ length (sent_since st1 stn) = length ops
  ∧ Forall (λ rq, via rq = _sickle (self st1)
                  ∧ endpoint (via rq) = "https://fraser.stlouisfed.org/oai")
           (sent_since st1 stn).
Proof.
  intros st1 stn. subst stn.
  rewrite sent_since_session, self_session, sent_session.
  split; [done|]. split; [done|]. split; [done|].
  split; [by rewrite length_fmap|].
  apply Forall_fmap, Forall_forall. by intros o _.
Qed.

(** C6. Each of the four operations raises exactly when the one call it
    makes on the collaborator raises, and it raises the collaborator's
    exception itself.  So [get_record] raises the collaborator's
    exception for an identifier that does not exist. *)
Theorem errors_propagate (o : operation) (st : state) :
  (∃ rq, sent_since st (snd (invoke o st)) = [rq]
         ∧ via rq = _sickle (self st)
         ∧ method rq = verb_of o
         ∧ ∀ e, fst (invoke o st) = Raised e
                ↔ fst (respond rq (remote st)) = Raised e)
  ∧ (∀ i s e, fst (list_records i s st) = Raised e
       ↔ fst (ListRecords (_sickle (self st)) (list_kwargs i s) (remote st)) = Raised e)
  ∧ (∀ e, fst (list_sets st) = Raised e
       ↔ fst (ListSets (_sickle (self st)) ∅ (remote st)) = Raised e)
  ∧ (∀ i s e, fst (list_identifiers i s st) = Raised e
       ↔ fst (ListIdentifiers (_sickle (self st)) (list_kwargs i s) (remote st)) = Raised e)
  ∧ (∀ id e, fst (get_record id st) = Raised e
       ↔ fst (GetRecord (_sickle (self st)) (get_kwargs id) (remote st)) = Raised e).
Proof.
  split.
  - exists (call_of (_sickle (self st)) o).
    rewrite run_invoke; simpl. by rewrite sent_since_after.
  - split; [intros; by rewrite run_list_records|].
    split; [intros; by rewrite run_list_sets|].
    split; [intros; by rewrite run_list_identifiers|].
    intros; by rewrite run_get_record.
Qed.

(** C7. None of the four operations changes the instance: [self] after
    the call is [self] before it, whether the call returned or raised;
    the same holds after any number of calls. *)
Theorem client_unchanged (st : state) :
  (∀ i s, self (snd (list_records i s st)) = self st)
  ∧ self (snd (list_sets st)) = self st
  ∧ (∀ i s, self (snd (list_identifiers i s st)) = self st)
  ∧ (∀ id, self (snd (get_record id st)) = self st)
  ∧ (∀ o, self (snd (invoke o st)) = self st)
  ∧ (∀ ops, self (session ops st) = self st).
Proof.
  split; [intros; by rewrite run_list_records|].
  split; [by rewrite run_list_sets|].
  split; [intros; by rewrite run_list_identifiers|].
  split; [intros; by rewrite run_get_record|].
  split; [intros; apply self_invoke | intros; apply self_session].
Qed.

(** C8. The same operation called twice on one instance makes two calls
    on the collaborator, equal to each other; the second is answered by
    the collaborator from the world the first one left, not from the
    first answer.  When the collaborator gives the same answer to both,
    the two calls of the operation have equal results. *)
Theorem no_caching (o : operation) (st : state) :
  let rq := call_of (_sickle (self st)) o in
  let st1 := snd (invoke o st) in
  let st2 := snd (invoke o st1) in
  sent st2 = sent st ++ [rq; rq]
  ∧ fst (invoke o st) = fst (respond rq (remote st))
  ∧ remote st1 = snd (respond rq (remote st))
  ∧ fst (invoke o st1) = fst (respond rq (remote st1))
  ∧ (fst (respond rq (remote st)) = fst (respond rq (remote st1)) →
     fst (invoke o st) = fst (invoke o st1)).
Proof.
  intros rq st1 st2. subst st2 st1 rq.
  rewrite !sent_invoke, !self_invoke, <- app_assoc; simpl.
  split; [done|].
  rewrite (run_invoke o (snd (invoke o st))), self_invoke; simpl.
  rewrite (run_invoke o st); simpl.
  split; [done|]. split; [done|]. split; [done|]. done.
Qed.

(** C9. A call of [list_records] or [list_identifiers] that leaves [set]
    out still passes the keyword [set] to the collaborator, with the
    value [None]; one that leaves [ignore_deleted] out passes
    [ignore_deleted=False]. *)
Theorem defaults_forwarded (st : state) :
  (∀ ign, ∃ rq, sent_since st (snd (call_list_records ign None st)) = [rq]
                ∧ method rq = vListRecords
                ∧ params rq !! "set" = Some PyNone)
  ∧ (∀ s, ∃ rq, sent_since st (snd (call_list_records None s st)) = [rq]
                ∧ method rq = vListRecords
                ∧ params rq !! "ignore_deleted" = Some (PyBool false))
  ∧ (∀ ign, ∃ rq, sent_since st (snd (call_list_identifiers ign None st)) = [rq]
                ∧ method rq = vListIdentifiers
                ∧ params rq !! "set" = Some PyNone)
  ∧ (∀ s, ∃ rq, sent_since st (snd (call_list_identifiers None s st)) = [rq]
                ∧ method rq = vListIdentifiers
                ∧ params rq !! "ignore_deleted" = Some (PyBool false)).
Proof.
  unfold call_list_records, call_list_identifiers.
  repeat split; intros;
    eexists;
    (rewrite ?run_list_records, ?run_list_identifiers; simpl;
     rewrite sent_since_after; split; [reflexivity|]; split; [reflexivity|];
     simpl; apply list_kwargs_spec).
Qed.

End Client.

(** ** The adapter on the collaborator in memory *)

Section OnMock.
Import Mock.

Example fresh_connection :
  endpoint (_sickle (self fresh)) = "https://fraser.stlouisfed.org/oai"
  ∧ sent fresh = [] ∧ remote fresh = 0.
Proof. by vm_compute. Qed.

Example list_records_in_set :
  fst (list_records false (Some "theme:3") fresh)
  = Returned [ {| ident := "oai:fraser.stlouisfed.org:title:1";
                  in_set := "theme:3"; deleted := true |} ].
Proof. vm_compute. reflexivity. Qed.

Example list_identifiers_not_deleted :
  fst (list_identifiers true None fresh)
  = Returned [ {| ident := "oai:fraser.stlouisfed.org:title:176";
                  in_set := "author:9"; deleted := false |} ].
Proof. vm_compute. reflexivity. Qed.

Example session_calls :
  (λ rq, (endpoint (via rq), method rq, map_to_list (params rq)))
    <$> sent (session [op_list_sets; op_get_record "x"] fresh)
  = [ ("https://fraser.stlouisfed.org/oai", vListSets, []);
      ("https://fraser.stlouisfed.org/oai", vGetRecord,
       [("metadataPrefix", PyStr "mods"); ("identifier", PyStr "x")]) ].
Proof. vm_compute. reflexivity. Qed.

Example unbound_connection_raises :
  fst (list_sets blank) = Raised ConnectionError.
Proof. vm_compute. reflexivity. Qed.

(** C2 on the identifier of the documentation: the collaborator knows it,
    and the record returned bears it. *)
Lemma get_record_forwards_witness :
  ∃ r, fst (get_record "oai:fraser.stlouisfed.org:title:176" fresh) = Returned r
       ∧ record_identifier r = "oai:fraser.stlouisfed.org:title:176".
Proof.
  destruct (get_record_forwards "oai:fraser.stlouisfed.org:title:176" fresh)
    as (kw & _ & Hrun & Hvalid).
  apply (Hvalid {| ident := "oai:fraser.stlouisfed.org:title:176";
                   in_set := "author:9"; deleted := false |}).
  - transitivity (fst (get_record "oai:fraser.stlouisfed.org:title:176" fresh)).
    + by rewrite Hrun.
    + vm_compute. reflexivity.
  - reflexivity.
Defined.

(** C6 on an identifier that the collaborator does not know. *)
Lemma errors_propagate_witness :
  fst (get_record "oai:fraser.stlouisfed.org:title:0" fresh)
  = Raised IdDoesNotExist.
Proof.
  destruct (errors_propagate op_list_sets fresh) as (_ & _ & _ & _ & Hget).
  apply Hget. vm_compute. reflexivity.
Defined.

(** C8 on [list_sets()] called twice: the collaborator serves two
    requests and answers both alike. *)
Lemma no_caching_witness :
  fst (invoke op_list_sets fresh)
  = fst (invoke op_list_sets (snd (invoke op_list_sets fresh)))
  ∧ remote (session [op_list_sets; op_list_sets] fresh) = 2.
Proof.
  destruct (no_caching op_list_sets fresh) as (_ & _ & _ & _ & Hsame).
  split.
  - apply Hsame. vm_compute. reflexivity.
  - vm_compute. reflexivity.
Defined.

End OnMock.

(** ** What the collaborator can tell from a call *)

Section Lossless.
Context `{API : SickleAPI}.

Lemma of_optional_inj s s' : of_optional s = of_optional s' → s = s'.
Proof. destruct s, s'; simpl; congruence. Qed.

Lemma list_kwargs_inj i s i' s' :
  list_kwargs i s = list_kwargs i' s' → i = i' ∧ s = s'.
Proof.
  intros Heq. split.
  - apply (f_equal (λ kw : kwargs, kw !! "ignore_deleted")) in Heq.
    unfold list_kwargs in Heq. simplify_map_eq. done.
  - apply (f_equal (λ kw : kwargs, kw !! "set")) in Heq.
    unfold list_kwargs in Heq. simplify_map_eq. by apply of_optional_inj.
Qed.

Lemma get_kwargs_inj id id' : get_kwargs id = get_kwargs id' → id = id'.
Proof.
  intros Heq.
  apply (f_equal (λ kw : kwargs, kw !! "identifier")) in Heq.
  unfold get_kwargs in Heq. simplify_map_eq. done.
Qed.

(** The call determines the operation and its arguments. *)
Lemma call_of_inj h o o' : call_of h o = call_of h o' → o = o'.
Proof.
  intros Heq.
  assert (Hm : verb_of o = verb_of o') by exact (f_equal method Heq).
  assert (Hp : params (call_of h o) = params (call_of h o'))
    by exact (f_equal params Heq).
  destruct o as [i s| |i s|id], o' as [i' s'| |i' s'|id'];
    simpl in Hm, Hp; try discriminate Hm; try done.
  - by destruct (list_kwargs_inj _ _ _ _ Hp) as [-> ->].
  - by destruct (list_kwargs_inj _ _ _ _ Hp) as [-> ->].
  - by rewrite (get_kwargs_inj _ _ Hp).
Qed.

Lemma remote_invoke o st :
  remote (snd (invoke o st))
  = snd (respond (call_of (_sickle (self st)) o) (remote st)).
Proof. by rewrite run_invoke. Qed.

(** X1. Two different calls of the methods (another method, or the same
    method with another [ignore_deleted], [set] or [identifier]) never make
    the same call on the collaborator: nothing of the caller's arguments is
    lost on the way, and [set=None] is not confused with a set named
    ["None"]. *)
Theorem distinct_calls_distinct_requests (o o' : operation) (st : state) :
  o ≠ o' →
  sent (snd (invoke o st)) ≠ sent (snd (invoke o' st)).
Proof.
  intros Hne Heq. apply Hne.
  rewrite !sent_invoke in Heq.
  apply app_inv_head in Heq.
  apply (call_of_inj (_sickle (self st))). congruence.
Qed.

(** X2. Instances are interchangeable: two instances initialised by
    [__init__], whatever was there before, answer every operation alike
    when the collaborator's world is the same: same result or exception,
    same call, same world afterwards, same instance afterwards. *)
Theorem instances_interchangeable (st1 st2 : state) (o : operation) :
  remote st1 = remote st2 →
  let a := invoke o (snd (__init__ st1)) in
  let b := invoke o (snd (__init__ st2)) in
  fst a = fst b
  ∧ self (snd a) = self (snd b)
  ∧ remote (snd a) = remote (snd b)
  ∧ sent_since st1 (snd a) = sent_since st2 (snd b).
Proof.
  intros Hw a b. subst a b.
  rewrite !run_invoke. unfold sent_since, after; simpl.
  rewrite !drop_app_length, Hw. done.
Qed.

(** X3. Calls made one after the other reach the collaborator in that
    order, one call each, on the connection of the instance; and a sequence
    of calls made in two parts is the sequence made at once. *)
Theorem session_in_order (ops : list operation) (st : state) :
  sent (session ops st) = sent st ++ (call_of (_sickle (self st)) <$> ops)
  ∧ ∀ ops', session (ops ++ ops') st = session ops' (session ops st).
Proof.
  split; [apply sent_session|].
  revert st; induction ops as [|o ops IH]; intros st ops'; simpl; [done|].
  apply IH.
Qed.

(** X4. The adapter adds no effect of its own to the collaborator's world:
    after any sequence of calls the world is the one that the collaborator's
    answers to these calls produce, in order. *)
Theorem world_changes_only_by_answers (ops : list operation) (st : state) :
  remote (session ops st)
  = foldl (λ w o, snd (respond (call_of (_sickle (self st)) o) w))
          (remote st) ops.
Proof.
  revert st; induction ops as [|o ops IH]; intros st; simpl; [done|].
  by rewrite IH, self_invoke, remote_invoke.
Qed.

(** X5. Whatever calls are made, every call that reaches the collaborator
    asks for the metadata format ["mods"], except [ListSets] which names
    none; none carries a [resumptionToken]; [identifier] is passed by
    [GetRecord] only, and [set] and [ignore_deleted] by the two listing
    verbs only. *)
Theorem session_params_invariant (ops : list operation) (st : state) :
  Forall (λ rq,
            params rq !! "metadataPrefix"
            = (if decide (method rq = vListSets) then None
               else Some (PyStr "mods"))
            ∧ params rq !! "resumptionToken" = None
            ∧ (is_Some (params rq !! "identifier") ↔ method rq = vGetRecord)
            ∧ (is_Some (params rq !! "set")
               ↔ method rq = vListRecords ∨ method rq = vListIdentifiers)
            ∧ (is_Some (params rq !! "ignore_deleted")
               ↔ method rq = vListRecords ∨ method rq = vListIdentifiers))
         (sent_since st (session ops st)).
Proof.
  rewrite sent_since_session.
  apply Forall_fmap, Forall_forall. intros o _.
  destruct o as [i s| |i s|id]; simpl;
    unfold list_kwargs, get_kwargs; simplify_map_eq;
    repeat split; try done; rewrite ?is_Some_alt; try done;
    try (intros [?|?]; done); try (intros _; by eauto).
Qed.

End Lossless.

Section LosslessOnMock.
Import Mock.

(** X1 on [list_records()] and [list_records(set="None")]. *)
Lemma distinct_calls_distinct_requests_witness :
  sent (snd (invoke (op_list_records false None) fresh))
  ≠ sent (snd (invoke (op_list_records false (Some "None")) fresh)).
Proof.
  apply (distinct_calls_distinct_requests
           (op_list_records false None) (op_list_records false (Some "None")) fresh).
  discriminate.
Defined.

(** X2 on an instance initialised from [blank] and one from [used]. *)
Lemma instances_interchangeable_witness :
  fst (invoke (op_get_record "oai:fraser.stlouisfed.org:title:176") (snd (__init__ blank)))
  = fst (invoke (op_get_record "oai:fraser.stlouisfed.org:title:176") (snd (__init__ used)))
  ∧ fst (invoke (op_get_record "oai:fraser.stlouisfed.org:title:176") used)
    = Raised ConnectionError.
Proof.
  split.
  - apply (instances_interchangeable blank used
             (op_get_record "oai:fraser.stlouisfed.org:title:176")).
    reflexivity.
  - vm_compute. reflexivity.
Defined.

End LosslessOnMock.
